(** * Verification of the [kubectl image pull] command (cmd/kubectl-image/pull.go)
    and of the start-up of the controller binary (cmd/imgctrl/main.go)

    A shallow embedding of [imagepull.RunE] and [pullImage].  The Go code is
    sequential and effectful: every call into an external package (cobra,
    clientcmd, grpc, the infra packages, containers/image) is modelled as an
    observable event appended to a trace, whose outcome is read from a
    [World] record that fixes what the outside world answers.  Go's
    [(value, error)] pairs become [result], Go's [nil] becomes [None], and
    [defer] is the combinator [defer] that runs its action after the body,
    whatever value the body returns. *)

From Stdlib Require Import String List Bool Arith Lia.
Import ListNotations.
Open Scope string_scope.
Open Scope list_scope.

(** ** Go values *)

(** Go [error] values: messages built by [fmt.Errorf], wrapping with [%w],
    and errors produced by external packages. *)
Inductive error : Type :=
| Errorf (msg : string)
| Wrapf (prefix : string) (cause : error)
| ExtErr (origin : string).

(** A Go call returning [(T, error)]. *)
Inductive result (A : Type) : Type :=
| Ok (a : A)
| Err (e : error).
Arguments Ok {A} a.
Arguments Err {A} e.

(** [imageindex], the parsed [<server>/<namespace>/<name>] coordinate. *)
Record imageindex : Type := mkIndex {
  server : string;
  namespace : string;
  name : string
}.

(** [tls.Config], restricted to the field the command sets. *)
Record TLSConfig : Type := mkTLS { InsecureSkipVerify : bool }.

(** [pb.Header] and the [pb.Packet] oneof carrying it. *)
Record Header : Type := mkHeader {
  Name : string;
  Namespace : string;
  Token : string
}.
Inductive Packet : Type := Packet_Header (h : Header).

(** The part of [rest.Config] the command reads. *)
Record Config : Type := mkConfig { BearerToken : string }.

(** [types.ImageReference]: a transport-qualified locator. *)
Record ImageReference : Type := mkRef {
  ref_transport : string;
  ref_within : string
}.

(** [signature.PolicyRequirement] constructors of containers/image. *)
Inductive PolicyRequirement : Type :=
| PRInsecureAcceptAnything
| PRReject
| PRSignedBy (keyPath : string)
| PRSignedBaseLayer.

Definition NewPRInsecureAcceptAnything : PolicyRequirement :=
  PRInsecureAcceptAnything.

(** [signature.Policy]: a default requirement list and per-transport scopes. *)
Record Policy : Type := mkPolicy {
  Default : list PolicyRequirement;
  Transports : list (string * list (string * list PolicyRequirement))
}.

(** [signature.PolicyContext] keeps the policy it was built from. *)
Record PolicyContext : Type := mkPolicyContext { ctx_policy : Policy }.

(** The clean-up closure returned by [fsh.TempFile]: it releases one file. *)
Inductive Cleanup : Type := ReleaseTempFile (path : string).

(** Handles returned by the external packages. *)
Definition ClientConn := nat.
Definition PullStream := nat.
Definition ProgressBar := nat.

(** ** Observable effects *)

Inductive event : Type :=
| EvGetBool (flag : string)
| EvGetenv (var : string)
| EvBuildConfig (masterURL kubeconfig : string)
| EvIndexFor (arg : string)
| EvDial (target : string) (tls : TLSConfig)
| EvPull (conn : ClientConn) (pkt : Packet)
| EvCreateHomeTempDir
| EvTempFile
| EvProgNew (label : string)
| EvProgWait (bar : ProgressBar)
| EvReceive (stream : PullStream) (file : string) (bar : ProgressBar)
| EvParseImageName (s : string)
| EvRelease (file : string)
| EvNilFuncCall
| EvLocalStorageRef (idx : imageindex)
| EvNewPolicyContext (pol : Policy)
| EvImageCopy (pc : PolicyContext) (dst : ImageReference)
              (src : option ImageReference)
(** [Close()] of a [grpc.ClientConn]; pull.go never calls it. *)
| EvConnClose (conn : ClientConn).

(** A writer monad over the trace of events. *)
Definition M (A : Type) : Type := (A * list event)%type.

Definition ret {A} (a : A) : M A := (a, []).

Definition bind {A B} (m : M A) (k : A -> M B) : M B :=
  let (a, l1) := m in
  let (b, l2) := k a in
  (b, l1 ++ l2).

Notation "x <- c1 ;; c2" := (bind c1 (fun x => c2))
  (at level 61, c1 at next level, right associativity).
Notation "c1 ;;; c2" := (bind c1 (fun _ : unit => c2))
  (at level 61, right associativity).

Definition emit (e : event) : M unit := (tt, [e]).

(** Go's [defer d]: [d] runs after the body, on every return of the body. *)
Definition defer {A} (d : M unit) (body : M A) : M A :=
  let (r, l1) := body in
  let (_, l2) := d in
  (r, l1 ++ l2).

(** ** The outside world *)

(** What every external call answers in one run: flags given on the command
    line, the environment, the kubeconfig, the server, the file system. *)
Record World : Type := mkWorld {
  cli_flags : list (string * bool);
  getenv : string -> string;
  build_config : string -> string -> result Config;
  index_for : string -> result imageindex;
  dial : string -> TLSConfig -> result ClientConn;
  pull_open : ClientConn -> Packet -> result PullStream;
  create_home_temp_dir : result unit;
  temp_file : result string;
  progress_bar : ProgressBar;
  receive : PullStream -> string -> result unit;
  parse_image_name : string -> result ImageReference;
  local_storage_ref : imageindex -> result ImageReference;
  new_policy_context : Policy -> option error;
  image_copy : PolicyContext -> ImageReference -> option ImageReference ->
               option error
}.

(** Flags registered by [init]:
    [imagepull.Flags().Bool("insecure", false, ...)]. *)
Definition registered_flags : list (string * bool) := [("insecure", false)].

Fixpoint assoc (k : string) (l : list (string * bool)) : option bool :=
  match l with
  | [] => None
  | (k', v) :: l' => if String.eqb k k' then Some v else assoc k l'
  end.

Section Command.
Variable w : World.

(** [c.Flags().GetBool(flag)]: the value given on the command line, else the
    registered default; an error for a flag that was never registered. *)
Definition GetBool (flag : string) : M (result bool) :=
  emit (EvGetBool flag) ;;;
  ret (match assoc flag registered_flags with
       | None => Err (Errorf (String.append "flag accessed but not defined: " flag))
       | Some def =>
           match assoc flag (cli_flags w) with
           | Some v => Ok v
           | None => Ok def
           end
       end).

Definition Getenv (var : string) : M string :=
  emit (EvGetenv var) ;;; ret (getenv w var).

Definition BuildConfigFromFlags (masterURL path : string) : M (result Config) :=
  emit (EvBuildConfig masterURL path) ;;; ret (build_config w masterURL path).

Definition indexFor (arg : string) : M (result imageindex) :=
  emit (EvIndexFor arg) ;;; ret (index_for w arg).

Definition DialContext (target : string) (cfg : TLSConfig)
  : M (result ClientConn) :=
  emit (EvDial target cfg) ;;; ret (dial w target cfg).

Definition client_Pull (conn : ClientConn) (pkt : Packet)
  : M (result PullStream) :=
  emit (EvPull conn pkt) ;;; ret (pull_open w conn pkt).

Definition createHomeTempDir : M (result unit) :=
  emit EvCreateHomeTempDir ;;; ret (create_home_temp_dir w).

(** [fsh.TempFile()]: the file and the closure that releases it. *)
Definition TempFile : M (result (string * Cleanup)) :=
  emit EvTempFile ;;;
  ret (match temp_file w with
       | Ok p => Ok (p, ReleaseTempFile p)
       | Err e => Err e
       end).

Definition progbar_New (label : string) : M ProgressBar :=
  emit (EvProgNew label) ;;; ret (progress_bar w).

Definition progbar_Wait (bar : ProgressBar) : M unit := emit (EvProgWait bar).

Definition pb_Receive (stream : PullStream) (fp : string) (bar : ProgressBar)
  : M (result unit) :=
  emit (EvReceive stream fp bar) ;;; ret (receive w stream fp).

Definition ParseImageName (s : string) : M (result ImageReference) :=
  emit (EvParseImageName s) ;;; ret (parse_image_name w s).

(** Calling a clean-up closure; calling a nil [func()] panics. *)
Definition call_cleanup (c : Cleanup) : M unit :=
  match c with ReleaseTempFile p => emit (EvRelease p) end.

Definition call_func (f : option Cleanup) : M unit :=
  match f with
  | Some c => call_cleanup c
  | None => emit EvNilFuncCall
  end.

Definition localStorageRef (idx : imageindex) : M (result ImageReference) :=
  emit (EvLocalStorageRef idx) ;;; ret (local_storage_ref w idx).

Definition NewPolicyContext (pol : Policy) : M (result PolicyContext) :=
  emit (EvNewPolicyContext pol) ;;;
  ret (match new_policy_context w pol with
       | Some e => Err e
       | None => Ok (mkPolicyContext pol)
       end).

Definition imgcopy_Image (pc : PolicyContext) (dst : ImageReference)
  (src : option ImageReference) : M (option error) :=
  emit (EvImageCopy pc dst src) ;;; ret (image_copy w pc dst src).

(** [pullImage]: returns [(ImageReference, func(), error)]. *)
Definition pullImage (idx : imageindex) (token : string) (insecure : bool)
  : M (option ImageReference * option Cleanup * option error) :=
  conn <- DialContext (server idx) (mkTLS insecure) ;;
  match conn with
  | Err err => ret (None, None, Some (Wrapf "error connecting: " err))
  | Ok conn =>
    let header := mkHeader (name idx) (namespace idx) token in
    stream <- client_Pull conn (Packet_Header header) ;;
    match stream with
    | Err err => ret (None, None, Some (Wrapf "error pulling: " err))
    | Ok stream =>
      fsh <- createHomeTempDir ;;
      match fsh with
      | Err err => ret (None, None, Some (Wrapf "error creating temp dir: " err))
      | Ok _ =>
        tf <- TempFile ;;
        match tf with
        | Err err =>
            ret (None, None, Some (Wrapf "error creating temp file: " err))
        | Ok (fp, cleanup) =>
          pbar <- progbar_New "Pulling" ;;
          defer (progbar_Wait pbar) (
            r <- pb_Receive stream fp pbar ;;
            match r with
            | Err err =>
                call_cleanup cleanup ;;;
                ret (None, None, Some (Wrapf "error receiving file: " err))
            | Ok _ =>
              let str := String.append "docker-archive:" fp in
              fromref <- ParseImageName str ;;
              match fromref with
              | Err err =>
                  call_cleanup cleanup ;;;
                  ret (None, None, Some (Wrapf "error parsing reference: " err))
              | Ok fromref => ret (Some fromref, Some cleanup, None)
              end
            end)
        end
      end
    end
  end.

(** The policy literal of [RunE]. *)
Definition accept_anything_policy : Policy :=
  mkPolicy [NewPRInsecureAcceptAnything] [].

(** [imagepull.RunE]: returns the command's [error] ([None] is [nil]). *)
Definition RunE (args : list string) : M (option error) :=
  if negb (Nat.eqb (length args) 1) then
    ret (Some (Errorf "invalid number of arguments"))
  else
  insecure <- GetBool "insecure" ;;
  match insecure with
  | Err err => ret (Some err)
  | Ok insecure =>
    kubeconfig <- Getenv "KUBECONFIG" ;;
    config <- BuildConfigFromFlags "" kubeconfig ;;
    match config with
    | Err err => ret (Some err)
    | Ok config =>
      if String.eqb (BearerToken config) "" then
        ret (Some (Errorf "empty token, you need a kubernetes token to pull"))
      else
      tidx <- indexFor (nth 0 args "") ;;
      match tidx with
      | Err err => ret (Some err)
      | Ok tidx =>
        res <- pullImage tidx (BearerToken config) insecure ;;
        let '(srcref, cleanup, err) := res in
        match err with
        | Some err => ret (Some err)
        | None =>
          defer (call_func cleanup) (
            dstref <- localStorageRef tidx ;;
            match dstref with
            | Err err => ret (Some err)
            | Ok dstref =>
              let pol := accept_anything_policy in
              polctx <- NewPolicyContext pol ;;
              match polctx with
              | Err err => ret (Some err)
              | Ok polctx => imgcopy_Image polctx dstref srcref
              end
            end)
        end
      end
    end
  end.

End Command.

(** * The controller binary (cmd/imgctrl/main.go)

    [main] is a straight-line start-up sequence.  As for the plugin, every
    external call is an event of a trace and its answer is read from a
    world record.  [klog.Fatal]/[klog.Fatalf] end the process with status
    255 (klog's [OsExit(255)]), [log.Fatalf] with status 1, and a normal
    return of [main] with status 0. *)
Module Imgctrl.

(** The informers whose caches [main] waits for. *)
Inductive informer : Type :=
| ConfigMaps
| Secrets
| Images
| ImageImports.

Inductive factory : Type := CoreFactory | ImageFactory.

(** How [flag.Parse()] ends on the process's command line: all flags
    parsed, [-h]/[-help] asked ([flag.ErrHelp]), or an undefined or
    malformed flag. *)
Inductive flag_parse : Type :=
| FlagsOk
| FlagsHelp
| FlagsError (msg : string).

Inductive cevent : Type :=
| CInitFlags
| CFlagParse
| CFlagUsage (err : option string)
| CNotifyContext (signals : list string)
| CGoStopOnDone
| CInfo (msg : string)
| CErrorf (prefix : string) (err : error)
| CFatal (prefix : string) (err : option error)
| CExit (code : nat)
| CGetenv (var : string)
| CBuildConfig (masterURL kubeconfig : string)
| CNewImageClient
| CNewCoreClient
| CNewInformerFactory (f : factory) (resyncSeconds : nat)
| CNewService (svc : string)
| CNewController (ctrl : string)
| CStartFactory (f : factory)
| CWaitForCacheSync (informers : list informer)
| CStarterNew (ctrls : list string)
| CStarterStart (lockName : string).

(** A writer monad over controller events. *)
Definition CM (A : Type) : Type := (A * list cevent)%type.

Definition cret {A} (a : A) : CM A := (a, []).

Definition cbind {A B} (m : CM A) (k : A -> CM B) : CM B :=
  let (a, l1) := m in
  let (b, l2) := k a in
  (b, l1 ++ l2).

Definition cemit (e : cevent) : CM unit := (tt, [e]).

Local Notation "c1 ;> c2" := (cbind c1 (fun _ : unit => c2))
  (at level 61, right associativity).

(** What the environment answers to the controller's start-up calls. *)
Record CWorld : Type := mkCWorld {
  c_flag_parse : flag_parse;
  c_getenv : string -> string;
  c_build_config : string -> string -> result Config;
  c_new_image_client : Config -> option error;
  c_new_core_client : Config -> option error;
  c_caches_synced : bool;
  c_starter_start : string -> option error
}.

(** [Version], set at link time; [v0.0.0] when not overridden. *)
Definition Version : string := "v0.0.0".

(** [time.Minute], the informers' resync period. *)
Definition Minute : nat := 60.

Section Main.
Variable cw : CWorld.

(** [klog.Fatal*]: logs and exits with status 255. *)
Definition klog_Fatal (prefix : string) (err : option error) : CM nat :=
  cemit (CFatal prefix err) ;> cemit (CExit 255) ;> cret 255.

(** [log.Fatalf]: logs and exits with status 1. *)
Definition log_Fatalf (prefix : string) (err : error) : CM nat :=
  cemit (CFatal prefix (Some err)) ;> cemit (CExit 1) ;> cret 1.

(** [flag.CommandLine] is [ExitOnError]: on a parse failure [flag.Parse]
    prints the error and the usage and exits with status 2; on [-h] it
    prints the usage and exits with status 0. *)
Definition flag_exit (err : option string) (code : nat) : CM nat :=
  cemit (CFlagUsage err) ;> cemit (CExit code) ;> cret code.

(** [main] after a successful [flag.Parse()]. *)
Definition main_after_flags : CM nat :=
  cemit (CNotifyContext ["SIGTERM"; "SIGINT"]) ;>
  cemit CGoStopOnDone ;>
  cemit (CInfo "starting shipwright image controller...") ;>
  cemit (CInfo (String.append "version " Version)) ;>
  cemit (CGetenv "KUBECONFIG") ;>
  let kubeconfig := c_getenv cw "KUBECONFIG" in
  cemit (CBuildConfig "" kubeconfig) ;>
  match c_build_config cw "" kubeconfig with
  | Err err => klog_Fatal "unable to read kubeconfig: " (Some err)
  | Ok config =>
    cemit CNewImageClient ;>
    match c_new_image_client cw config with
    | Some err => log_Fatalf "unable to create image image client: " err
    | None =>
      cemit (CNewInformerFactory ImageFactory Minute) ;>
      cemit CNewCoreClient ;>
      match c_new_core_client cw config with
      | Some err => log_Fatalf "unable to create core client: " err
      | None =>
        cemit (CNewInformerFactory CoreFactory Minute) ;>
        cemit (CNewService "ImageImport") ;>
        cemit (CNewService "Image") ;>
        cemit (CNewService "ImageIO") ;>
        cemit (CNewService "User") ;>
        cemit (CNewController "ImageImport") ;>
        cemit (CNewController "Image") ;>
        cemit (CNewController "MutatingWebHook") ;>
        cemit (CNewController "ImageIO") ;>
        cemit (CNewController "Metric") ;>
        cemit (CInfo "waiting for caches to sync ...") ;>
        cemit (CStartFactory CoreFactory) ;>
        cemit (CStartFactory ImageFactory) ;>
        cemit (CWaitForCacheSync [ConfigMaps; Secrets; Images; ImageImports]) ;>
        if negb (c_caches_synced cw) then klog_Fatal "caches not syncing" None
        else
        cemit (CInfo "caches in sync, moving on.") ;>
        cemit (CStarterNew ["MutatingWebHook"; "Image"; "Metric"; "ImageIO";
                            "ImageImport"]) ;>
        cemit (CStarterStart "imgctrl-leader-election") ;>
        match c_starter_start cw "imgctrl-leader-election" with
        | Some err =>
            cemit (CErrorf "unable to start controllers: " err) ;> cret 0
        | None => cret 0
        end
      end
    end
  end.

(** [main]; the result is the process exit status. *)
Definition main : CM nat :=
  cemit CInitFlags ;>
  cemit CFlagParse ;>
  match c_flag_parse cw with
  | FlagsHelp => flag_exit None 0
  | FlagsError msg => flag_exit (Some msg) 2
  | FlagsOk => main_after_flags
  end.

End Main.

End Imgctrl.

(** ** A concrete world: every call succeeds *)

Definition world_ok : World := {|
  cli_flags := [];
  getenv := fun _ => "/home/u/.kube/config";
  build_config := fun _ _ => Ok (mkConfig "tok");
  index_for := fun _ => Ok (mkIndex "svc:443" "team-a" "app");
  dial := fun _ _ => Ok 1;
  pull_open := fun _ _ => Ok 2;
  create_home_temp_dir := Ok tt;
  temp_file := Ok "/home/u/.tmp/x1/file";
  progress_bar := 3;
  receive := fun _ _ => Ok tt;
  parse_image_name := fun s => Ok (mkRef "docker-archive" s);
  local_storage_ref := fun i => Ok (mkRef "containers-storage" (name i));
  new_policy_context := fun _ => None;
  image_copy := fun _ _ _ => None
|}.

(** The same world with one answer changed. *)
Definition with_token (w : World) (tok : string) : World :=
  {| cli_flags := cli_flags w; getenv := getenv w;
     build_config := fun _ _ => Ok (mkConfig tok);
     index_for := index_for w; dial := dial w; pull_open := pull_open w;
     create_home_temp_dir := create_home_temp_dir w; temp_file := temp_file w;
     progress_bar := progress_bar w; receive := receive w;
     parse_image_name := parse_image_name w;
     local_storage_ref := local_storage_ref w;
     new_policy_context := new_policy_context w; image_copy := image_copy w |}.

Definition with_receive_error (w : World) : World :=
  {| cli_flags := cli_flags w; getenv := getenv w;
     build_config := build_config w;
     index_for := index_for w; dial := dial w; pull_open := pull_open w;
     create_home_temp_dir := create_home_temp_dir w; temp_file := temp_file w;
     progress_bar := progress_bar w;
     receive := fun _ _ => Err (ExtErr "stream reset");
     parse_image_name := parse_image_name w;
     local_storage_ref := local_storage_ref w;
     new_policy_context := new_policy_context w; image_copy := image_copy w |}.

Definition with_bad_index (w : World) : World :=
  {| cli_flags := cli_flags w; getenv := getenv w;
     build_config := build_config w;
     index_for := fun _ => Err (Errorf "invalid image reference");
     dial := dial w; pull_open := pull_open w;
     create_home_temp_dir := create_home_temp_dir w; temp_file := temp_file w;
     progress_bar := progress_bar w; receive := receive w;
     parse_image_name := parse_image_name w;
     local_storage_ref := local_storage_ref w;
     new_policy_context := new_policy_context w; image_copy := image_copy w |}.

Example runE_ok_trace :
  RunE world_ok ["svc:443/team-a/app"] =
  (None,
   [EvGetBool "insecure"; EvGetenv "KUBECONFIG";
    EvBuildConfig "" "/home/u/.kube/config"; EvIndexFor "svc:443/team-a/app";
    EvDial "svc:443" (mkTLS false);
    EvPull 1 (Packet_Header (mkHeader "app" "team-a" "tok"));
    EvCreateHomeTempDir; EvTempFile; EvProgNew "Pulling";
    EvReceive 2 "/home/u/.tmp/x1/file" 3;
    EvParseImageName "docker-archive:/home/u/.tmp/x1/file";
    EvProgWait 3;
    EvLocalStorageRef (mkIndex "svc:443" "team-a" "app");
    EvNewPolicyContext accept_anything_policy;
    EvImageCopy (mkPolicyContext accept_anything_policy)
      (mkRef "containers-storage" "app")
      (Some (mkRef "docker-archive" "docker-archive:/home/u/.tmp/x1/file"));
    EvRelease "/home/u/.tmp/x1/file"]).
Proof. reflexivity. Qed.

Example runE_receive_error_trace :
  RunE (with_receive_error world_ok) ["svc:443/team-a/app"] =
  (Some (Wrapf "error receiving file: " (ExtErr "stream reset")),
   [EvGetBool "insecure"; EvGetenv "KUBECONFIG";
    EvBuildConfig "" "/home/u/.kube/config"; EvIndexFor "svc:443/team-a/app";
    EvDial "svc:443" (mkTLS false);
    EvPull 1 (Packet_Header (mkHeader "app" "team-a" "tok"));
    EvCreateHomeTempDir; EvTempFile; EvProgNew "Pulling";
    EvReceive 2 "/home/u/.tmp/x1/file" 3;
    EvRelease "/home/u/.tmp/x1/file"; EvProgWait 3]).
Proof. reflexivity. Qed.

(** The phase prefixes [pullImage] wraps its errors with. *)
Definition pull_error_prefixes : list string :=
  ["error connecting: "; "error pulling: "; "error creating temp dir: ";
   "error creating temp file: "; "error receiving file: ";
   "error parsing reference: "].

(** The effects of [pullImage] on the local file system and the terminal:
    temp dir and temp file creation, the progress bar, writing the received
    stream into the file, parsing the archive reference, releasing the file. *)
Definition is_local_effect (e : event) : bool :=
  match e with
  | EvCreateHomeTempDir | EvTempFile | EvProgNew _ | EvProgWait _
  | EvReceive _ _ _ | EvParseImageName _ | EvRelease _ => true
  | _ => false
  end.

(** Concrete controller worlds: a clean start, a start whose leader-elected
    controller start fails, and one whose caches never sync. *)
Definition cworld_ok : Imgctrl.CWorld := {|
  Imgctrl.c_flag_parse := Imgctrl.FlagsOk;
  Imgctrl.c_getenv := fun _ => "/etc/kube/config";
  Imgctrl.c_build_config := fun _ _ => Ok (mkConfig "tok");
  Imgctrl.c_new_image_client := fun _ => None;
  Imgctrl.c_new_core_client := fun _ => None;
  Imgctrl.c_caches_synced := true;
  Imgctrl.c_starter_start := fun _ => None
|}.

Definition cworld_starter_fails : Imgctrl.CWorld := {|
  Imgctrl.c_flag_parse := Imgctrl.FlagsOk;
  Imgctrl.c_getenv := fun _ => "/etc/kube/config";
  Imgctrl.c_build_config := fun _ _ => Ok (mkConfig "tok");
  Imgctrl.c_new_image_client := fun _ => None;
  Imgctrl.c_new_core_client := fun _ => None;
  Imgctrl.c_caches_synced := true;
  Imgctrl.c_starter_start := fun _ => Some (ExtErr "leader election lost")
|}.

Definition cworld_no_sync : Imgctrl.CWorld := {|
  Imgctrl.c_flag_parse := Imgctrl.FlagsOk;
  Imgctrl.c_getenv := fun _ => "/etc/kube/config";
  Imgctrl.c_build_config := fun _ _ => Ok (mkConfig "tok");
  Imgctrl.c_new_image_client := fun _ => None;
  Imgctrl.c_new_core_client := fun _ => None;
  Imgctrl.c_caches_synced := false;
  Imgctrl.c_starter_start := fun _ => None
|}.

Definition cworld_kubeconfig_fails : Imgctrl.CWorld := {|
  Imgctrl.c_flag_parse := Imgctrl.FlagsOk;
  Imgctrl.c_getenv := fun _ => "/etc/kube/config";
  Imgctrl.c_build_config := fun _ _ => Err (ExtErr "no such file");
  Imgctrl.c_new_image_client := fun _ => None;
  Imgctrl.c_new_core_client := fun _ => None;
  Imgctrl.c_caches_synced := true;
  Imgctrl.c_starter_start := fun _ => None
|}.

(** A command line with an undefined flag. *)
Definition cworld_bad_flag : Imgctrl.CWorld := {|
  Imgctrl.c_flag_parse := Imgctrl.FlagsError "flag provided but not defined: -bogus";
  Imgctrl.c_getenv := fun _ => "/etc/kube/config";
  Imgctrl.c_build_config := fun _ _ => Ok (mkConfig "tok");
  Imgctrl.c_new_image_client := fun _ => None;
  Imgctrl.c_new_core_client := fun _ => None;
  Imgctrl.c_caches_synced := true;
  Imgctrl.c_starter_start := fun _ => None
|}.

(** ** Trace observations *)

Definition is_release (p : string) (e : event) : bool :=
  match e with EvRelease q => String.eqb p q | _ => false end.

(** How many times the file [p] is released in a trace. *)
Definition count_release (p : string) (tr : list event) : nat :=
  length (filter (is_release p) tr).

Definition is_prog_wait (e : event) : bool :=
  match e with EvProgWait _ => true | _ => false end.

(** The error text of the empty-token check of [RunE]. *)
Definition empty_token_error : error :=
  Errorf "empty token, you need a kubernetes token to pull".

(** ** Proof automation *)

Arguments String.append : simpl never.

Ltac unfold_go :=
  unfold RunE, pullImage, GetBool, Getenv, BuildConfigFromFlags, indexFor,
    DialContext, client_Pull, createHomeTempDir, TempFile, progbar_New,
    progbar_Wait, pb_Receive, ParseImageName, call_cleanup, call_func,
    localStorageRef, NewPolicyContext, imgcopy_Image, defer, bind, emit, ret
    in *.

(** Split on every answer of the outside world that the code branches on. *)
Ltac split_results :=
  repeat match goal with
  | |- context [match ?x with Ok _ => _ | Err _ => _ end] =>
      let E := fresh "E" in destruct x eqn:E
  | H : context [match ?x with Ok _ => _ | Err _ => _ end] |- _ =>
      let E := fresh "E" in destruct x eqn:E
  | |- context [match ?x with Some _ => _ | None => _ end] =>
      let E := fresh "E" in destruct x eqn:E
  | H : context [match ?x with Some _ => _ | None => _ end] |- _ =>
      let E := fresh "E" in destruct x eqn:E
  | |- context [if ?b then _ else _] =>
      let E := fresh "E" in destruct b eqn:E
  | H : context [if ?b then _ else _] |- _ =>
      let E := fresh "E" in destruct b eqn:E
  | H : Ok _ = Ok _ |- _ => injection H as H; subst
  | H : Ok _ = Err _ |- _ => discriminate H
  | H : Err _ = Ok _ |- _ => discriminate H
  | H : Err _ = Err _ |- _ => injection H as H; subst
  | x : (_ * _)%type |- _ => destruct x
  end.

Ltac run_go := unfold_go; cbn in *; split_results; cbn in *.

Ltac in_cases :=
  repeat match goal with
  | H : _ \/ _ |- _ => destruct H as [H|H]
  | H : False |- _ => contradiction
  | H1 : ?x = Err ?a, H2 : ?x = Err ?b |- _ =>
      rewrite H1 in H2; injection H2; clear H2; intros; subst
  | H1 : ?x = Ok ?a, H2 : ?x = Ok ?b |- _ =>
      rewrite H1 in H2; injection H2; clear H2; intros; subst
  | H : ?a = ?b |- _ => discriminate H
  | H : ?a = ?b |- _ => injection H; clear H; intros; subst
  end.

Ltac finish_go :=
  intros; in_cases; rewrite ?String.eqb_refl in *; cbn in *;
  try congruence; try (intuition congruence).

(** ** Clean-up of the temp file *)

(** Inside [pullImage]: once the temp file [p] is acquired, a failing call
    has released it exactly once, a successful call has not released it and
    hands back the closure that releases it. *)
Lemma pullImage_temp_file_release (w : World) idx tok ins p :
  temp_file w = Ok p -> In EvTempFile (snd (pullImage w idx tok ins)) ->
  match fst (pullImage w idx tok ins) with
  | (_, _, Some _) => count_release p (snd (pullImage w idx tok ins)) = 1
  | (_, c, None) =>
      c = Some (ReleaseTempFile p) /\
      count_release p (snd (pullImage w idx tok ins)) = 0
  end.
Proof. intros Hp. run_go; finish_go. Qed.

(** Over the whole command: once the temp file [p] is acquired, the trace
    releases it exactly once and never calls a nil clean-up function. *)
Lemma runE_temp_file_release (w : World) args p :
  temp_file w = Ok p -> In EvTempFile (snd (RunE w args)) ->
  count_release p (snd (RunE w args)) = 1 /\
  ~ In EvNilFuncCall (snd (RunE w args)).
Proof.
  intros Hp. unfold RunE.
  destruct (negb (Nat.eqb (length args) 1)); [cbn; tauto|].
  run_go; finish_go.
Qed.

Lemma count_release_zero_not_in p l :
  count_release p l = 0 -> ~ In (EvRelease p) l.
Proof.
  unfold count_release. induction l as [|e l IH]; cbn; [tauto|].
  intros H [->|Hin].
  - cbn in H. rewrite String.eqb_refl in H. discriminate.
  - destruct (is_release p e); [discriminate|]. exact (IH H Hin).
Qed.

Lemma count_release_pos_in p l :
  count_release p l <> 0 -> In (EvRelease p) l.
Proof.
  unfold count_release. induction l as [|e l IH]; cbn; [tauto|].
  destruct e; cbn; try (intros H; right; exact (IH H)).
  destruct (String.eqb p file) eqn:E.
  - intros _. left. apply String.eqb_eq in E. subst. reflexivity.
  - intros H. right. exact (IH H).
Qed.

(** ** Claims *)

(** C1: once [fsh.TempFile] has handed out the file [p], the file is released
    exactly once on every exit path: by [pullImage] itself when it fails after
    the acquisition, otherwise by the clean-up closure it returns, which
    [RunE] defers, so the whole command releases [p] exactly once. *)
Theorem C1_temp_file_released_once (w : World) args idx tok ins p :
  temp_file w = Ok p ->
  (In EvTempFile (snd (pullImage w idx tok ins)) ->
   match fst (pullImage w idx tok ins) with
   | (_, _, Some _) => count_release p (snd (pullImage w idx tok ins)) = 1
   | (_, c, None) =>
       c = Some (ReleaseTempFile p) /\
       count_release p (snd (pullImage w idx tok ins)) = 0
   end) /\
  (In EvTempFile (snd (RunE w args)) ->
   count_release p (snd (RunE w args)) = 1 /\
   ~ In EvNilFuncCall (snd (RunE w args))).
Proof.
  intros Hp. split.
  - apply pullImage_temp_file_release; exact Hp.
  - apply runE_temp_file_release; exact Hp.
Qed.

Lemma C1_temp_file_released_once_witness :
  temp_file world_ok = Ok "/home/u/.tmp/x1/file" /\
  count_release "/home/u/.tmp/x1/file"
    (snd (RunE world_ok ["svc:443/team-a/app"])) = 1.
Proof.
  split; [reflexivity|].
  apply (C1_temp_file_released_once world_ok ["svc:443/team-a/app"]
           (mkIndex "svc:443" "team-a" "app") "tok" false
           "/home/u/.tmp/x1/file").
  - reflexivity.
  - vm_compute. tauto.
Defined.

(** C2: when receiving the stream into the temp file [p] fails, [pullImage]
    releases [p] before it returns (before the deferred progress wait), returns
    an error with nil reference and nil clean-up, and never reaches
    [alltransports.ParseImageName]. *)
Theorem C2_receive_error_releases_file (w : World) idx tok ins st p bar e :
  In (EvReceive st p bar) (snd (pullImage w idx tok ins)) ->
  receive w st p = Err e ->
  fst (pullImage w idx tok ins) =
    (None, None, Some (Wrapf "error receiving file: " e)) /\
  (exists pre, snd (pullImage w idx tok ins) =
               pre ++ [EvReceive st p bar; EvRelease p; EvProgWait bar]) /\
  (forall s, ~ In (EvParseImageName s) (snd (pullImage w idx tok ins))).
Proof.
  intros Hin Hr. run_go; in_cases; try congruence;
  match goal with
  | |- context [EvDial ?t ?c] =>
      split; [reflexivity|]; split;
      [ eexists [EvDial t c; _; _; _; _]; reflexivity
      | intros s Hs; cbn in Hs; intuition discriminate ]
  end.
Qed.

Lemma C2_receive_error_releases_file_witness :
  In (EvReceive 2 "/home/u/.tmp/x1/file" 3)
    (snd (pullImage (with_receive_error world_ok)
            (mkIndex "svc:443" "team-a" "app") "tok" false)) /\
  fst (pullImage (with_receive_error world_ok)
         (mkIndex "svc:443" "team-a" "app") "tok" false) =
    (None, None, Some (Wrapf "error receiving file: " (ExtErr "stream reset"))).
Proof.
  split; [vm_compute; tauto|].
  apply (C2_receive_error_releases_file (with_receive_error world_ok)
           (mkIndex "svc:443" "team-a" "app") "tok" false 2
           "/home/u/.tmp/x1/file" 3 (ExtErr "stream reset")).
  - vm_compute. tauto.
  - reflexivity.
Defined.

(** C3: when the kubeconfig resolves to an empty bearer token, [RunE] fails
    without dialling, without opening a stream and so without entering
    [pullImage] (whose first action is the dial); with one argument the error
    is the empty-token credential error and the only effects are reading the
    flag, the environment and the kubeconfig. *)
Theorem C3_empty_token_no_network (w : World) args cfg :
  build_config w "" (getenv w "KUBECONFIG") = Ok cfg ->
  BearerToken cfg = "" ->
  (exists e, fst (RunE w args) = Some e) /\
  (forall t c, ~ In (EvDial t c) (snd (RunE w args))) /\
  (forall c pkt, ~ In (EvPull c pkt) (snd (RunE w args))) /\
  (length args = 1 ->
   RunE w args =
   (Some empty_token_error,
    [EvGetBool "insecure"; EvGetenv "KUBECONFIG";
     EvBuildConfig "" (getenv w "KUBECONFIG")])).
Proof.
  intros Hc Ht. unfold RunE.
  destruct (Nat.eqb (length args) 1) eqn:Hl; cbn [negb].
  - unfold_go; cbn. rewrite Hc; cbn. rewrite Ht; cbn.
    destruct (assoc "insecure" (cli_flags w)); cbn;
      repeat split; try (eexists; reflexivity); intros; intuition discriminate.
  - apply Nat.eqb_neq in Hl. cbn.
    repeat split; try (eexists; reflexivity); try tauto.
Qed.

Lemma C3_empty_token_no_network_witness :
  build_config (with_token world_ok "") "" (getenv world_ok "KUBECONFIG") =
    Ok (mkConfig "") /\
  fst (RunE (with_token world_ok "") ["svc:443/team-a/app"]) =
    Some empty_token_error.
Proof.
  split; [reflexivity|].
  destruct (C3_empty_token_no_network (with_token world_ok "")
              ["svc:443/team-a/app"] (mkConfig "") eq_refl eq_refl)
    as [_ [_ [_ H]]].
  rewrite (H eq_refl). reflexivity.
Defined.

(** C8: with any number of arguments other than one, [RunE] returns the
    usage error and performs no effect at all: no flag read, no kubeconfig,
    no network, no file system. *)
Theorem C8_arity_error_first (w : World) args :
  length args <> 1 ->
  RunE w args = (Some (Errorf "invalid number of arguments"), []).
Proof.
  intros Hl. unfold RunE.
  apply Nat.eqb_neq in Hl. rewrite Hl. reflexivity.
Qed.

Lemma C8_arity_error_first_witness :
  length ["a"; "b"] <> 1 /\
  RunE world_ok ["a"; "b"] = (Some (Errorf "invalid number of arguments"), []).
Proof.
  split; [cbn; lia|].
  apply (C8_arity_error_first world_ok ["a"; "b"]). cbn. lia.
Defined.

(** C10: the empty-token check comes before [indexFor]: with an empty token
    the credential error is returned and the coordinate is never parsed,
    whatever [indexFor] would answer; and whenever [pullImage] returns a
    non-nil error, its reference and its clean-up function are both nil. *)
Theorem C10_token_check_first_and_nil_on_error (w : World) args cfg :
  length args = 1 ->
  build_config w "" (getenv w "KUBECONFIG") = Ok cfg ->
  BearerToken cfg = "" ->
  fst (RunE w args) = Some empty_token_error /\
  (forall a, ~ In (EvIndexFor a) (snd (RunE w args))) /\
  (forall idx tok ins r c e,
     fst (pullImage w idx tok ins) = (r, c, Some e) -> r = None /\ c = None).
Proof.
  intros Hl Hc Ht. split; [|split].
  - unfold RunE. rewrite Hl. cbn [Nat.eqb negb].
    unfold_go; cbn. rewrite Hc; cbn. rewrite Ht; cbn.
    destruct (assoc "insecure" (cli_flags w)); reflexivity.
  - intros a. unfold RunE. rewrite Hl. cbn [Nat.eqb negb].
    unfold_go; cbn. rewrite Hc; cbn. rewrite Ht; cbn.
    destruct (assoc "insecure" (cli_flags w)); cbn; intuition discriminate.
  - intros idx tok ins r c e. run_go; finish_go.
Qed.

Lemma C10_token_check_first_and_nil_on_error_witness :
  index_for (with_bad_index (with_token world_ok "")) "bad" =
    Err (Errorf "invalid image reference") /\
  fst (RunE (with_bad_index (with_token world_ok "")) ["bad"]) =
    Some empty_token_error.
Proof.
  split; [reflexivity|].
  apply (C10_token_check_first_and_nil_on_error
           (with_bad_index (with_token world_ok "")) ["bad"] (mkConfig ""));
    reflexivity.
Defined.

(** C5: once [progbar.New] has run, every return of [pullImage] (success,
    receive error, reference-parse error) is preceded by exactly one
    [pbar.Wait()], which is the last effect of the call. *)
Theorem C5_progress_wait_last (w : World) idx tok ins :
  In (EvProgNew "Pulling") (snd (pullImage w idx tok ins)) ->
  exists pre,
    snd (pullImage w idx tok ins) = pre ++ [EvProgWait (progress_bar w)] /\
    filter is_prog_wait pre = [].
Proof.
  run_go; finish_go;
  match goal with
  | |- exists pre, ?l = pre ++ [?x] /\ _ =>
      exists (removelast l); split; reflexivity
  end.
Qed.

Lemma C5_progress_wait_last_witness :
  In (EvProgNew "Pulling")
    (snd (pullImage (with_receive_error world_ok)
            (mkIndex "svc:443" "team-a" "app") "tok" false)) /\
  exists pre,
    snd (pullImage (with_receive_error world_ok)
           (mkIndex "svc:443" "team-a" "app") "tok" false) =
      pre ++ [EvProgWait 3] /\ filter is_prog_wait pre = [].
Proof.
  split; [vm_compute; tauto|].
  apply (C5_progress_wait_last (with_receive_error world_ok)
           (mkIndex "svc:443" "team-a" "app") "tok" false).
  vm_compute. tauto.
Defined.

(** C6: [alltransports.ParseImageName] is reached only after [pb.Receive]
    into the temp file [p] returned without error, and always on the string
    ["docker-archive:" ++ p]; if parsing fails, [p] is released and an error
    is returned, otherwise the parsed reference is returned with the
    closure releasing [p]. *)
Theorem C6_reference_after_receive (w : World) idx tok ins s :
  In (EvParseImageName s) (snd (pullImage w idx tok ins)) ->
  exists st p bar pre post,
    temp_file w = Ok p /\ receive w st p = Ok tt /\
    s = String.append "docker-archive:" p /\
    snd (pullImage w idx tok ins) = pre ++ EvReceive st p bar :: post /\
    In (EvParseImageName s) post /\
    (forall e, parse_image_name w s = Err e ->
       fst (pullImage w idx tok ins) =
         (None, None, Some (Wrapf "error parsing reference: " e)) /\
       In (EvRelease p) post) /\
    (forall r, parse_image_name w s = Ok r ->
       fst (pullImage w idx tok ins) = (Some r, Some (ReleaseTempFile p), None)).
Proof.
  run_go; finish_go;
  match goal with
  | Hr : receive _ ?st ?p = Ok ?u, Hd : dial _ _ _ = Ok ?c |- _ =>
      destruct u;
      exists st, p, (progress_bar w);
      eexists [EvDial _ _; EvPull c _; EvCreateHomeTempDir; EvTempFile;
               EvProgNew "Pulling"];
      eexists;
      split; [reflexivity|]; split; [exact Hr|]; split; [reflexivity|];
      split; [reflexivity|]; split; [cbn; tauto|];
      split; intros ? Hx; rewrite Hx in *; in_cases;
      first [congruence | split; [reflexivity | cbn; tauto]]
  end.
Qed.

Lemma C6_reference_after_receive_witness :
  In (EvParseImageName "docker-archive:/home/u/.tmp/x1/file")
    (snd (pullImage world_ok (mkIndex "svc:443" "team-a" "app") "tok" false)) /\
  exists st p bar pre post,
    temp_file world_ok = Ok p /\ receive world_ok st p = Ok tt /\
    "docker-archive:/home/u/.tmp/x1/file" = String.append "docker-archive:" p /\
    snd (pullImage world_ok (mkIndex "svc:443" "team-a" "app") "tok" false) =
      pre ++ EvReceive st p bar :: post /\
    In (EvParseImageName "docker-archive:/home/u/.tmp/x1/file") post /\
    (forall e, parse_image_name world_ok "docker-archive:/home/u/.tmp/x1/file"
                 = Err e ->
       fst (pullImage world_ok (mkIndex "svc:443" "team-a" "app") "tok" false) =
         (None, None, Some (Wrapf "error parsing reference: " e)) /\
       In (EvRelease p) post) /\
    (forall r, parse_image_name world_ok "docker-archive:/home/u/.tmp/x1/file"
                 = Ok r ->
       fst (pullImage world_ok (mkIndex "svc:443" "team-a" "app") "tok" false) =
         (Some r, Some (ReleaseTempFile p), None)).
Proof.
  split; [vm_compute; tauto|].
  apply (C6_reference_after_receive world_ok (mkIndex "svc:443" "team-a" "app")
           "tok" false "docker-archive:/home/u/.tmp/x1/file").
  vm_compute. tauto.
Defined.

(** C7: the [insecure] flag is registered with default [false], and every
    dial of the command uses a TLS configuration whose [InsecureSkipVerify]
    is exactly the flag's value: the command-line value when given, else
    [false]. *)
Theorem C7_insecure_flag_to_tls (w : World) args target cfg :
  In (EvDial target cfg) (snd (RunE w args)) ->
  assoc "insecure" registered_flags = Some false /\
  InsecureSkipVerify cfg =
    match assoc "insecure" (cli_flags w) with Some v => v | None => false end.
Proof.
  intros H. split; [reflexivity|].
  revert H. unfold RunE.
  destruct (negb (Nat.eqb (length args) 1)); [cbn; tauto|].
  run_go; finish_go.
Qed.

Lemma C7_insecure_flag_to_tls_witness :
  In (EvDial "svc:443" (mkTLS false)) (snd (RunE world_ok ["svc:443/team-a/app"])) /\
  InsecureSkipVerify (mkTLS false) = false.
Proof.
  split; [vm_compute; tauto|].
  apply (C7_insecure_flag_to_tls world_ok ["svc:443/team-a/app"] "svc:443").
  vm_compute. tauto.
Defined.

(** C9: every policy context [RunE] builds comes from the one policy whose
    default is the single [insecureAcceptAnything] requirement and that has
    no transport-specific requirement, and the commit copies under a policy
    context built from exactly that policy. *)
Theorem C9_accept_anything_policy (w : World) args pc dst src :
  In (EvImageCopy pc dst src) (snd (RunE w args)) ->
  ctx_policy pc = mkPolicy [PRInsecureAcceptAnything] [] /\
  (forall pol, In (EvNewPolicyContext pol) (snd (RunE w args)) ->
     pol = mkPolicy [PRInsecureAcceptAnything] []).
Proof.
  unfold RunE.
  destruct (negb (Nat.eqb (length args) 1)); [cbn; tauto|].
  run_go; finish_go.
  all: split; [reflexivity | intros pol Hpol; in_cases; reflexivity].
Qed.

Lemma C9_accept_anything_policy_witness :
  In (EvImageCopy (mkPolicyContext accept_anything_policy)
        (mkRef "containers-storage" "app")
        (Some (mkRef "docker-archive" "docker-archive:/home/u/.tmp/x1/file")))
     (snd (RunE world_ok ["svc:443/team-a/app"])) /\
  ctx_policy (mkPolicyContext accept_anything_policy) =
    mkPolicy [PRInsecureAcceptAnything] [].
Proof.
  match goal with |- ?A /\ _ => assert (H : A) by (vm_compute; tauto) end.
  split; [exact H|].
  exact (proj1 (C9_accept_anything_policy world_ok ["svc:443/team-a/app"]
                  _ _ _ H)).
Defined.

(** C4 (as stated, refuted): neither resource is gone when a successful pull
    call returns: the connection dialled by [pullImage] is never closed, and
    the temp file is not removed, its release being left to the caller. *)
Lemma C4_file_outlives_pull_call :
  ~ (forall (w : World) idx tok ins c,
       dial w (server idx) (mkTLS ins) = Ok c ->
       In (EvConnClose c) (snd (pullImage w idx tok ins))) /\
  ~ (forall (w : World) idx tok ins p,
       temp_file w = Ok p ->
       In EvTempFile (snd (pullImage w idx tok ins)) ->
       In (EvRelease p) (snd (pullImage w idx tok ins))).
Proof.
  split.
  - intros H.
    pose proof (H world_ok (mkIndex "svc:443" "team-a" "app") "tok" false 1
                  eq_refl) as Hc.
    vm_compute in Hc. in_cases.
  - intros H.
    assert (Hin : In EvTempFile
                    (snd (pullImage world_ok (mkIndex "svc:443" "team-a" "app")
                            "tok" false))) by (vm_compute; tauto).
    apply (H world_ok _ _ _ "/home/u/.tmp/x1/file" eq_refl) in Hin.
    vm_compute in Hin. in_cases.
Qed.

(** C4 (amended): once [pullImage] holds its temp file [p], a call that then
    fails (receive or reference-parse error) has released [p] when it
    returns, and a successful call leaves [p] in place and returns the
    closure that releases it to the caller; the connection [pullImage] dials
    is closed on no path, neither by [pullImage] nor later by [RunE]. *)
Theorem C4_temp_file_lifetime (w : World) idx tok ins :
  (forall p, temp_file w = Ok p ->
   In EvTempFile (snd (pullImage w idx tok ins)) ->
   (forall r c e, fst (pullImage w idx tok ins) = (r, c, Some e) ->
      In (EvRelease p) (snd (pullImage w idx tok ins))) /\
   (forall r c, fst (pullImage w idx tok ins) = (r, c, None) ->
      c = Some (ReleaseTempFile p) /\
      ~ In (EvRelease p) (snd (pullImage w idx tok ins)))) /\
  (forall conn, ~ In (EvConnClose conn) (snd (pullImage w idx tok ins))) /\
  (forall args conn, ~ In (EvConnClose conn) (snd (RunE w args))).
Proof.
  split; [|split].
  - intros p Hp Hin.
    pose proof (pullImage_temp_file_release w idx tok ins p Hp Hin) as H.
    split.
    + intros r c e Hf. rewrite Hf in H.
      apply count_release_pos_in. rewrite H. discriminate.
    + intros r c Hf. rewrite Hf in H. destruct H as [Hc H0].
      split; [exact Hc|]. apply count_release_zero_not_in. exact H0.
  - intros conn. run_go; finish_go.
  - intros args conn. unfold RunE.
    destruct (negb (Nat.eqb (length args) 1)); [cbn; tauto|].
    run_go; finish_go.
Qed.

Lemma C4_temp_file_lifetime_witness :
  temp_file world_ok = Ok "/home/u/.tmp/x1/file" /\
  ~ In (EvRelease "/home/u/.tmp/x1/file")
      (snd (pullImage world_ok (mkIndex "svc:443" "team-a" "app") "tok" false)).
Proof.
  split; [reflexivity|].
  refine (proj2 (proj2 (proj1 (C4_temp_file_lifetime world_ok
                          (mkIndex "svc:443" "team-a" "app") "tok" false)
                          "/home/u/.tmp/x1/file" eq_refl _)
                  _ _ eq_refl)).
  vm_compute. tauto.
Defined.

(** ** Further properties of [pullImage] and [RunE] *)

(** Every error [pullImage] returns wraps the underlying cause with one of
    its six phase prefixes. *)
Theorem pullImage_error_phase_tagged (w : World) idx tok ins r c e :
  fst (pullImage w idx tok ins) = (r, c, Some e) ->
  exists prefix cause, e = Wrapf prefix cause /\ In prefix pull_error_prefixes.
Proof.
  run_go; finish_go; eexists _, _; split; try reflexivity; cbn; tauto.
Qed.

Ltac solve_conj :=
  repeat first [ reflexivity | eassumption
               | apply String.eqb_neq; eassumption | split ].

(** [pullImage] has a local effect (temp dir, temp file, progress bar,
    receiving into the file, parsing the reference, releasing the file) only
    after the dial and the opening of the pull stream both succeeded; a
    failed dial leaves nothing but the dial attempt. *)
Theorem pullImage_fs_after_network (w : World) idx tok ins :
  (forall ev, In ev (snd (pullImage w idx tok ins)) ->
   is_local_effect ev = true ->
   exists conn stream,
     dial w (server idx) (mkTLS ins) = Ok conn /\
     pull_open w conn
       (Packet_Header (mkHeader (name idx) (namespace idx) tok)) = Ok stream) /\
  (forall e, dial w (server idx) (mkTLS ins) = Err e ->
   pullImage w idx tok ins =
     ((None, None, Some (Wrapf "error connecting: " e)),
      [EvDial (server idx) (mkTLS ins)])).
Proof.
  split.
  - intros ev. run_go; intros Hin Hfs; in_cases; subst; cbn in Hfs;
      try discriminate;
      eexists _, _; (split; [reflexivity | eassumption]).
  - intros e He. unfold_go; cbn. rewrite He. reflexivity.
Qed.

(** The single packet [RunE] sends on the pull stream is the header built
    from the parsed coordinate's name and namespace and the kubeconfig's
    (non-empty) bearer token, on the connection dialled to the coordinate's
    server. *)
Theorem runE_pull_header (w : World) args conn pkt :
  In (EvPull conn pkt) (snd (RunE w args)) ->
  exists cfg idx,
    build_config w "" (getenv w "KUBECONFIG") = Ok cfg /\
    BearerToken cfg <> "" /\
    index_for w (nth 0 args "") = Ok idx /\
    dial w (server idx)
      (mkTLS (match assoc "insecure" (cli_flags w) with
              | Some v => v | None => false end)) = Ok conn /\
    pkt = Packet_Header (mkHeader (name idx) (namespace idx) (BearerToken cfg)).
Proof.
  unfold RunE.
  destruct (negb (Nat.eqb (length args) 1)); [cbn; tauto|].
  run_go; finish_go; eexists _, _; solve_conj.
Qed.

(** The commit copies from the reference parsed out of the pulled temp file
    ["docker-archive:" ++ p] into the local-storage reference of the very
    coordinate parsed from the argument. *)
Theorem runE_commit_sources (w : World) args pc dst src :
  In (EvImageCopy pc dst src) (snd (RunE w args)) ->
  exists idx p r,
    index_for w (nth 0 args "") = Ok idx /\
    local_storage_ref w idx = Ok dst /\
    temp_file w = Ok p /\
    parse_image_name w (String.append "docker-archive:" p) = Ok r /\
    src = Some r.
Proof.
  unfold RunE.
  destruct (negb (Nat.eqb (length args) 1)); [cbn; tauto|].
  run_go; finish_go; eexists _, _, _; solve_conj.
Qed.

(** The temp file is released only after the commit has read it: the
    release is the last effect of the command and comes after the copy. *)
Theorem runE_release_after_commit (w : World) args pc dst src p :
  temp_file w = Ok p ->
  In (EvImageCopy pc dst src) (snd (RunE w args)) ->
  exists pre,
    snd (RunE w args) = pre ++ [EvImageCopy pc dst src; EvRelease p] /\
    ~ In (EvRelease p) pre.
Proof.
  intros Hp. unfold RunE.
  destruct (negb (Nat.eqb (length args) 1)); [cbn; tauto|].
  run_go; finish_go;
  match goal with
  | |- exists pre, ?l = pre ++ _ /\ _ =>
      exists (removelast (removelast l)); split;
      [reflexivity | cbn; intuition discriminate]
  end.
Qed.

(** [RunE] reports success only when the copy into local storage was
    performed and succeeded. *)
Theorem runE_success_means_commit (w : World) args :
  fst (RunE w args) = None ->
  exists pc dst src,
    In (EvImageCopy pc dst src) (snd (RunE w args)) /\
    image_copy w pc dst src = None.
Proof.
  unfold RunE.
  destruct (negb (Nat.eqb (length args) 1)); [cbn; discriminate|].
  run_go; finish_go; eexists _, _, _; (split; [cbn; tauto | eassumption]).
Qed.

(** The commit phase (local-storage reference, policy, copy) is reached only
    when [pullImage], called with the parsed coordinate, the kubeconfig's
    token and the flag's value, returned a reference and a clean-up function
    without error. *)
Theorem runE_commit_only_after_pull (w : World) args idx :
  In (EvLocalStorageRef idx) (snd (RunE w args)) ->
  exists cfg r c,
    build_config w "" (getenv w "KUBECONFIG") = Ok cfg /\
    index_for w (nth 0 args "") = Ok idx /\
    fst (pullImage w idx (BearerToken cfg)
           (match assoc "insecure" (cli_flags w) with
            | Some v => v | None => false end)) = (Some r, Some c, None).
Proof.
  unfold RunE.
  destruct (negb (Nat.eqb (length args) 1)); [cbn; tauto|].
  run_go; finish_go;
    eexists _, _, _; (split; [first [reflexivity | eassumption]|]);
    (split; [first [reflexivity | eassumption]|]);
    run_go; in_cases; try reflexivity; congruence.
Qed.

(** When [pullImage] fails, [RunE] returns its error unchanged. *)
Theorem runE_returns_pull_error (w : World) args cfg idx r c e :
  length args = 1 ->
  build_config w "" (getenv w "KUBECONFIG") = Ok cfg ->
  BearerToken cfg <> "" ->
  index_for w (nth 0 args "") = Ok idx ->
  fst (pullImage w idx (BearerToken cfg)
         (match assoc "insecure" (cli_flags w) with
          | Some v => v | None => false end)) = (r, c, Some e) ->
  fst (RunE w args) = Some e.
Proof.
  intros Hl Hc Ht Hi Hpull.
  apply String.eqb_neq in Ht.
  unfold RunE. rewrite Hl. cbn [Nat.eqb negb].
  run_go; finish_go.
Qed.

(** ** The controller binary *)

Ltac unfold_ctrl :=
  unfold Imgctrl.main, Imgctrl.main_after_flags, Imgctrl.flag_exit,
    Imgctrl.klog_Fatal, Imgctrl.log_Fatalf, Imgctrl.cbind,
    Imgctrl.cemit, Imgctrl.cret in *.

Ltac run_ctrl :=
  unfold_ctrl; cbn in *;
  match goal with
  | |- context [Imgctrl.c_flag_parse ?c] => destruct (Imgctrl.c_flag_parse c)
  | _ => idtac
  end;
  cbn in *; split_results; cbn in *.

(** Every non-zero exit of the controller comes right after a report: the
    fatal log line, or (with status 2) the flag package's error and usage
    output for a bad command line; no controller is ever started on such a
    run. *)
Theorem imgctrl_nonzero_exit_reported (cw : Imgctrl.CWorld) :
  fst (Imgctrl.main cw) <> 0 ->
  (exists pre last,
     snd (Imgctrl.main cw) =
       pre ++ [last; Imgctrl.CExit (fst (Imgctrl.main cw))] /\
     ((exists prefix err, last = Imgctrl.CFatal prefix err) \/
      (exists msg, last = Imgctrl.CFlagUsage (Some msg) /\
                   fst (Imgctrl.main cw) = 2))) /\
  (forall l, ~ In (Imgctrl.CStarterStart l) (snd (Imgctrl.main cw))).
Proof.
  run_ctrl; try congruence;
  (intros _; split;
  [ match goal with
    | |- exists pre last, ?l = _ /\ _ =>
        exists (removelast (removelast l)); eexists;
        (split; [reflexivity|]);
        first [ left; eexists _, _; reflexivity
              | right; eexists; split; reflexivity ]
    end
  | intros l H; in_cases ]).
Qed.

(** A failure of the leader-elected start of the controllers is only logged:
    the controller still exits with status 0, and the error log line is its
    last effect. *)
Theorem imgctrl_starter_error_exits_zero (cw : Imgctrl.CWorld) err :
  In (Imgctrl.CStarterStart "imgctrl-leader-election") (snd (Imgctrl.main cw)) ->
  Imgctrl.c_starter_start cw "imgctrl-leader-election" = Some err ->
  fst (Imgctrl.main cw) = 0 /\
  exists pre,
    snd (Imgctrl.main cw) =
      pre ++ [Imgctrl.CStarterStart "imgctrl-leader-election";
              Imgctrl.CErrorf "unable to start controllers: " err].
Proof.
  intros Hin Hs. revert Hin. run_ctrl; finish_go;
  (split; [reflexivity|]);
  match goal with
  | |- exists pre, ?l = _ => exists (removelast (removelast l)); reflexivity
  end.
Qed.

(** The controllers are started only on a run where both informer factories
    were started and [cache.WaitForCacheSync] reported the four caches
    (config maps, secrets, images, image imports) in sync, all before the
    start. *)
Theorem imgctrl_controllers_after_cache_sync (cw : Imgctrl.CWorld) l :
  In (Imgctrl.CStarterStart l) (snd (Imgctrl.main cw)) ->
  Imgctrl.c_caches_synced cw = true /\
  exists pre post,
    snd (Imgctrl.main cw) = pre ++ Imgctrl.CStarterStart l :: post /\
    In (Imgctrl.CStartFactory Imgctrl.CoreFactory) pre /\
    In (Imgctrl.CStartFactory Imgctrl.ImageFactory) pre /\
    In (Imgctrl.CWaitForCacheSync
          [Imgctrl.ConfigMaps; Imgctrl.Secrets; Imgctrl.Images;
           Imgctrl.ImageImports]) pre.
Proof.
  run_ctrl; finish_go;
  (split; [destruct (Imgctrl.c_caches_synced cw); [reflexivity|discriminate]|]);
  match goal with
  | |- exists pre post, ?l = _ /\ _ =>
      first
        [ exists (removelast l), (@nil Imgctrl.cevent);
          split; [reflexivity | cbn; tauto]
        | exists (removelast (removelast l)); eexists [_];
          split; [reflexivity | cbn; tauto] ]
  end.
Qed.

(** Exit statuses of the failed start-ups, once [flag.Parse] accepted the
    command line: an unreadable kubeconfig exits
    with 255 before any client is created; a failure to create the image or
    the core client exits with 1 before any informer is started. *)
Theorem imgctrl_startup_failure_status (cw : Imgctrl.CWorld) :
  Imgctrl.c_flag_parse cw = Imgctrl.FlagsOk ->
  (forall e, Imgctrl.c_build_config cw "" (Imgctrl.c_getenv cw "KUBECONFIG") = Err e ->
   fst (Imgctrl.main cw) = 255 /\
   ~ In Imgctrl.CNewImageClient (snd (Imgctrl.main cw)) /\
   ~ In Imgctrl.CNewCoreClient (snd (Imgctrl.main cw))) /\
  (forall cfg, Imgctrl.c_build_config cw "" (Imgctrl.c_getenv cw "KUBECONFIG") = Ok cfg ->
   (Imgctrl.c_new_image_client cw cfg <> None \/
    Imgctrl.c_new_core_client cw cfg <> None) ->
   fst (Imgctrl.main cw) = 1 /\
   forall f, ~ In (Imgctrl.CStartFactory f) (snd (Imgctrl.main cw))).
Proof.
  intros Hf. split.
  - intros e He. unfold_ctrl; cbn. rewrite Hf; cbn. rewrite He; cbn.
    repeat split; intuition discriminate.
  - intros cfg Hc Hcl. unfold_ctrl; cbn. rewrite Hf; cbn. rewrite Hc; cbn.
    destruct (Imgctrl.c_new_image_client cw cfg) eqn:Ei; cbn.
    + split; [reflexivity | intros f; intuition discriminate].
    + destruct (Imgctrl.c_new_core_client cw cfg) eqn:Ec; cbn.
      * split; [reflexivity | intros f; intuition discriminate].
      * tauto.
Qed.

(** [flag.Parse()] runs before anything else of [main]: a command line it
    rejects ends the process with status 2 after the error and usage text,
    and [-h] ends it with status 0 after the usage text; in both cases no
    signal handler is installed, nothing is logged and the kubeconfig is
    never read. *)
Theorem imgctrl_flag_exit (cw : Imgctrl.CWorld) :
  (Imgctrl.c_flag_parse cw = Imgctrl.FlagsHelp ->
   Imgctrl.main cw =
     (0, [Imgctrl.CInitFlags; Imgctrl.CFlagParse;
          Imgctrl.CFlagUsage None; Imgctrl.CExit 0])) /\
  (forall msg, Imgctrl.c_flag_parse cw = Imgctrl.FlagsError msg ->
   Imgctrl.main cw =
     (2, [Imgctrl.CInitFlags; Imgctrl.CFlagParse;
          Imgctrl.CFlagUsage (Some msg); Imgctrl.CExit 2])).
Proof.
  split; [intros Hf | intros msg Hf];
    unfold Imgctrl.main, Imgctrl.flag_exit; rewrite Hf; reflexivity.
Qed.

(** ** Witnesses of the further properties *)

Lemma pullImage_error_phase_tagged_witness :
  fst (pullImage (with_receive_error world_ok)
         (mkIndex "svc:443" "team-a" "app") "tok" false) =
    (None, None, Some (Wrapf "error receiving file: " (ExtErr "stream reset"))) /\
  exists prefix cause,
    Wrapf "error receiving file: " (ExtErr "stream reset") = Wrapf prefix cause /\
    In prefix pull_error_prefixes.
Proof.
  split; [reflexivity|].
  apply (pullImage_error_phase_tagged (with_receive_error world_ok)
           (mkIndex "svc:443" "team-a" "app") "tok" false None None).
  reflexivity.
Defined.

Lemma runE_pull_header_witness :
  In (EvPull 1 (Packet_Header (mkHeader "app" "team-a" "tok")))
     (snd (RunE world_ok ["svc:443/team-a/app"])) /\
  exists cfg idx,
    build_config world_ok "" (getenv world_ok "KUBECONFIG") = Ok cfg /\
    BearerToken cfg <> "" /\
    index_for world_ok (nth 0 ["svc:443/team-a/app"] "") = Ok idx /\
    dial world_ok (server idx)
      (mkTLS (match assoc "insecure" (cli_flags world_ok) with
              | Some v => v | None => false end)) = Ok 1 /\
    Packet_Header (mkHeader "app" "team-a" "tok") =
      Packet_Header (mkHeader (name idx) (namespace idx) (BearerToken cfg)).
Proof.
  split; [vm_compute; tauto|].
  apply (runE_pull_header world_ok ["svc:443/team-a/app"]).
  vm_compute. tauto.
Defined.

Lemma runE_commit_sources_witness :
  In (EvImageCopy (mkPolicyContext accept_anything_policy)
        (mkRef "containers-storage" "app")
        (Some (mkRef "docker-archive" "docker-archive:/home/u/.tmp/x1/file")))
     (snd (RunE world_ok ["svc:443/team-a/app"])) /\
  exists idx p r,
    index_for world_ok (nth 0 ["svc:443/team-a/app"] "") = Ok idx /\
    local_storage_ref world_ok idx = Ok (mkRef "containers-storage" "app") /\
    temp_file world_ok = Ok p /\
    parse_image_name world_ok (String.append "docker-archive:" p) = Ok r /\
    Some (mkRef "docker-archive" "docker-archive:/home/u/.tmp/x1/file") = Some r.
Proof.
  split; [vm_compute; tauto|].
  apply (runE_commit_sources world_ok ["svc:443/team-a/app"]
           (mkPolicyContext accept_anything_policy)).
  vm_compute. tauto.
Defined.

Lemma runE_release_after_commit_witness :
  temp_file world_ok = Ok "/home/u/.tmp/x1/file" /\
  exists pre,
    snd (RunE world_ok ["svc:443/team-a/app"]) =
      pre ++ [EvImageCopy (mkPolicyContext accept_anything_policy)
                (mkRef "containers-storage" "app")
                (Some (mkRef "docker-archive"
                         "docker-archive:/home/u/.tmp/x1/file"));
              EvRelease "/home/u/.tmp/x1/file"] /\
    ~ In (EvRelease "/home/u/.tmp/x1/file") pre.
Proof.
  split; [reflexivity|].
  apply (runE_release_after_commit world_ok ["svc:443/team-a/app"]).
  - reflexivity.
  - vm_compute. tauto.
Defined.

Lemma runE_success_means_commit_witness :
  fst (RunE world_ok ["svc:443/team-a/app"]) = None /\
  exists pc dst src,
    In (EvImageCopy pc dst src) (snd (RunE world_ok ["svc:443/team-a/app"])) /\
    image_copy world_ok pc dst src = None.
Proof.
  split; [reflexivity|].
  apply (runE_success_means_commit world_ok ["svc:443/team-a/app"]).
  reflexivity.
Defined.

Lemma runE_commit_only_after_pull_witness :
  In (EvLocalStorageRef (mkIndex "svc:443" "team-a" "app"))
     (snd (RunE world_ok ["svc:443/team-a/app"])) /\
  exists cfg r c,
    build_config world_ok "" (getenv world_ok "KUBECONFIG") = Ok cfg /\
    index_for world_ok (nth 0 ["svc:443/team-a/app"] "") =
      Ok (mkIndex "svc:443" "team-a" "app") /\
    fst (pullImage world_ok (mkIndex "svc:443" "team-a" "app") (BearerToken cfg)
           (match assoc "insecure" (cli_flags world_ok) with
            | Some v => v | None => false end)) = (Some r, Some c, None).
Proof.
  split; [vm_compute; tauto|].
  apply (runE_commit_only_after_pull world_ok ["svc:443/team-a/app"]).
  vm_compute. tauto.
Defined.

Lemma runE_returns_pull_error_witness :
  fst (RunE (with_receive_error world_ok) ["svc:443/team-a/app"]) =
    Some (Wrapf "error receiving file: " (ExtErr "stream reset")).
Proof.
  apply (runE_returns_pull_error (with_receive_error world_ok)
           ["svc:443/team-a/app"] (mkConfig "tok")
           (mkIndex "svc:443" "team-a" "app") None None).
  - reflexivity.
  - reflexivity.
  - discriminate.
  - reflexivity.
  - reflexivity.
Defined.

Lemma imgctrl_nonzero_exit_reported_witness :
  fst (Imgctrl.main cworld_no_sync) = 255 /\
  forall l, ~ In (Imgctrl.CStarterStart l) (snd (Imgctrl.main cworld_no_sync)).
Proof.
  split; [reflexivity|].
  apply (imgctrl_nonzero_exit_reported cworld_no_sync). discriminate.
Defined.

Lemma imgctrl_starter_error_exits_zero_witness :
  fst (Imgctrl.main cworld_starter_fails) = 0.
Proof.
  apply (imgctrl_starter_error_exits_zero cworld_starter_fails
           (ExtErr "leader election lost")).
  - vm_compute. tauto.
  - reflexivity.
Defined.

Lemma imgctrl_controllers_after_cache_sync_witness :
  Imgctrl.c_caches_synced cworld_ok = true.
Proof.
  apply (imgctrl_controllers_after_cache_sync cworld_ok
           "imgctrl-leader-election").
  vm_compute. tauto.
Defined.

Lemma imgctrl_startup_failure_status_witness :
  fst (Imgctrl.main cworld_kubeconfig_fails) = 255.
Proof.
  apply (proj1 (imgctrl_startup_failure_status cworld_kubeconfig_fails eq_refl)
           (ExtErr "no such file")).
  reflexivity.
Defined.

Lemma imgctrl_flag_exit_witness :
  Imgctrl.main cworld_bad_flag =
    (2, [Imgctrl.CInitFlags; Imgctrl.CFlagParse;
         Imgctrl.CFlagUsage (Some "flag provided but not defined: -bogus");
         Imgctrl.CExit 2]).
Proof.
  apply (proj2 (imgctrl_flag_exit cworld_bad_flag)). reflexivity.
Defined.
